(** * A chat widget: the chat service and the agent view

    Shallow embedding of [services/chatService.ts] and of the script and the
    event bindings of the chat view (a Vue single-file component).

    Conventions.
    - Text that the program trims, concatenates or renders is a JavaScript
      string: a sequence of UTF-16 code units, [jsstring].  Identifiers that
      the program only compares (token types, key names, modifier names, the
      endpoint) are plain strings.
    - [Date.now()] yields an integral number of milliseconds; timestamps and
      list indices are far below 2^53, where adding two numbers is exact, so
      they are integers here.
    - An awaited call is run to completion in place: the model follows one
      handler at a time, as the event loop does between two awaits. *)

From Stdlib Require Import ZArith NArith List String Ascii Bool Lia.
From stdpp Require Import base gmap strings list.

Local Open Scope Z_scope.

(* ===================================================================== *)
(** ** JavaScript strings                                                *)
(* ===================================================================== *)

Module JS.

(** A string value: its UTF-16 code units. *)
Definition jsstring := list N.

(** An ASCII literal as a JavaScript string. *)
Fixpoint lit (s : string) : jsstring :=
  match s with
  | EmptyString => []
  | String c s' => N_of_ascii c :: lit s'
  end.

(** The code units that [String.prototype.trim] strips: ECMAScript's
    WhiteSpace and LineTerminator, all of them in the basic plane. *)
Definition isWhiteSpace (c : N) : bool :=
  ((9 <=? c) && (c <=? 13)                (* TAB LF VT FF CR *)
   || (c =? 32) || (c =? 160)             (* SP, NBSP *)
   || (c =? 5760)                         (* U+1680 *)
   || ((8192 <=? c) && (c <=? 8202))      (* U+2000 .. U+200A *)
   || (c =? 8232) || (c =? 8233)          (* LS, PS *)
   || (c =? 8239) || (c =? 8287)          (* U+202F, U+205F *)
   || (c =? 12288) || (c =? 65279))%N.    (* U+3000, U+FEFF *)

Fixpoint trimStart (s : jsstring) : jsstring :=
  match s with
  | [] => []
  | c :: s' => if isWhiteSpace c then trimStart s' else s
  end.

Definition trimEnd (s : jsstring) : jsstring := rev (trimStart (rev s)).

Definition trim (s : jsstring) : jsstring := trimEnd (trimStart s).

(** ToBoolean on a string: only the empty string is falsy. *)
Definition truthy (s : jsstring) : bool :=
  match s with [] => false | _ :: _ => true end.

End JS.

Import JS.

(* ===================================================================== *)
(** ** services/chatService.ts                                           *)
(* ===================================================================== *)

Module ChatService.

(** The request body built by [sendMessage]: the object literal
    [{ message, history, provider }]; [provider] may be undefined. *)
Record Body (Hist : Type) := mkBody {
  message : jsstring;
  history : list Hist;
  provider : option jsstring;
}.
Arguments mkBody {Hist}.
Arguments message {Hist}.
Arguments history {Hist}.
Arguments provider {Hist}.

(** What [post] resolves to; only [data] is read. *)
Record HttpResponse (Data : Type) := mkResponse {
  data : Data;
  status : Z;
}.
Arguments mkResponse {Data}.
Arguments data {Data}.
Arguments status {Data}.

(** One call of [console.error(label, value)]. *)
Record ConsoleEntry (Err : Type) := mkEntry {
  label : string;
  logged : Err;
}.
Arguments mkEntry {Err}.

(** What the service acts on: the state behind the HTTP base client (the
    network, the server, the clock) and the console. *)
Record World (Env Err : Type) := mkWorld {
  env : Env;
  console : list (ConsoleEntry Err);
}.
Arguments mkWorld {Env Err}.
Arguments env {Env Err}.
Arguments console {Env Err}.

Section Service.

(** [Err]: whatever a rejected request throws.  [Data]: the payload of a
    response; the declared [ChatResponse] shape is not checked at run time.
    [Hist]: the elements of [history] (typed [any]). *)
Context {Env Err Data Hist : Type}.

(** [APIBase.post], the HTTP base client: one request, which either
    resolves to a response or rejects, and leaves the environment in a new
    state. *)
Variable post : string -> Body Hist -> Env -> (Err + HttpResponse Data) * Env.

(** Asynchronous code that may throw: a state and error monad. *)
Definition Async (A : Type) : Type := World Env Err -> (Err + A) * World Env Err.

Definition ret {A} (a : A) : Async A := fun w => (inr a, w).

Definition throw {A} (e : Err) : Async A := fun w => (inl e, w).

Definition bind {A B} (m : Async A) (k : A -> Async B) : Async B :=
  fun w =>
    match m w with
    | (inr a, w') => k a w'
    | (inl e, w') => (inl e, w')
    end.

Definition try_catch {A} (body : Async A) (handler : Err -> Async A) : Async A :=
  fun w =>
    match body w with
    | (inr a, w') => (inr a, w')
    | (inl e, w') => handler e w'
    end.

Definition this_post (url : string) (b : Body Hist) : Async (HttpResponse Data) :=
  fun w =>
    let (r, env') := post url b (env w) in
    (r, mkWorld env' (console w)).

Definition console_error (l : string) (e : Err) : Async unit :=
  fun w => (inr tt, mkWorld (env w) (console w ++ [mkEntry l e])).

Local Notation "'await' x <- m ;; k" := (bind m (fun x => k))
  (at level 10, x name, m at level 99, k at level 200).
Local Notation "'perform' m ;; k" := (bind m (fun _ => k))
  (at level 10, m at level 99, k at level 200).

(** [sendMessage(message, history = [], provider?)]; an omitted [history]
    is [None] and takes the default. *)
Definition sendMessage (message : jsstring) (history : option (list Hist))
    (provider : option jsstring) : Async Data :=
  let history := default [] history in
  try_catch
    (await response <- this_post "chat" (mkBody message history provider) ;;
     ret (data response))
    (fun error =>
       perform console_error "Error sending message:" error ;;
       throw error).

End Service.

End ChatService.

(* ===================================================================== *)
(** ** The data model: messages and the thread                           *)
(* ===================================================================== *)

Inductive Role := user | assistant.

Record Message := mkMessage {
  role : Role;
  content : jsstring;
  timestamp : Z;
  provider : option jsstring;
}.

(** [Array.prototype.push] of one element. *)
Definition push {A} (l : list A) (x : A) : list A := l ++ [x].

(* ===================================================================== *)
(** ** stores/chat: the chat store                                       *)
(* ===================================================================== *)

Module ChatStore.

(** The two properties of the store that the view reads and writes:
    [chatStore.messages] and [chatStore.isTyping]. *)
Record State := mkState {
  messages : list Message;
  isTyping : bool;
}.

(** The declared shape of the service's reply. *)
Record ChatResponse := mkChatResponse {
  r_message : jsstring;
  r_response : jsstring;
  r_provider : option jsstring;
  r_contextUsed : option bool;
}.

(** The store together with what its service call acts on. *)
Record StoreWorld (Env Err : Type) := mkStoreWorld {
  store : State;
  outside : ChatService.World Env Err;
}.
Arguments mkStoreWorld {Env Err}.
Arguments store {Env Err}.
Arguments outside {Env Err}.

Section Store.

Context {Env Err Hist : Type}.
Variable post :
  string -> ChatService.Body Hist -> Env ->
  (Err + ChatService.HttpResponse ChatResponse) * Env.

(** [Date.now()] reads the clock of the environment. *)
Variable Date_now : Env -> Z.

(** The fixed notice shown when the call fails, the history sent along and
    the provider asked for: the spec leaves all three open. *)
Variable errorNotice : jsstring.
Variable historyOf : list Message -> list Hist.
Variable providerChoice : option jsstring.

(** Modelled from the spec: the store's [sendMessage] (stores/chat is not
    among the sources).  Section 4.1: push the user message at once, set the
    waiting flag before the call, call the chat service, push the
    assistant's reply with its provider tag on success or a generic failure
    notice on failure (logged, not thrown further), and clear the flag on
    both paths. *)
Definition sendMessage (text : jsstring) (sw : StoreWorld Env Err)
    : (Err + unit) * StoreWorld Env Err :=
  let now0 := Date_now (ChatService.env (outside sw)) in
  let thread := push (messages (store sw)) (mkMessage user text now0 None) in
  (* isTyping = true while the call is pending *)
  match ChatService.sendMessage post text (Some (historyOf thread))
          providerChoice (outside sw) with
  | (inr reply, out') =>
      let now1 := Date_now (ChatService.env out') in
      (inr tt,
       mkStoreWorld
         (mkState (push thread
                     (mkMessage assistant (r_response reply) now1
                                (r_provider reply)))
                  false)
         out')
  | (inl error, out') =>
      let now1 := Date_now (ChatService.env out') in
      match ChatService.console_error "Error in chat store:" error out' with
      | (_, out'') =>
          (inr tt,
           mkStoreWorld
             (mkState (push thread
                         (mkMessage assistant errorNotice now1 None))
                      false)
             out'')
      end
  end.

End Store.

End ChatStore.

(* ===================================================================== *)
(** ** markdown-it: tokens, rule table, rendering loop                   *)
(* ===================================================================== *)

Module MarkdownIt.

(** A token of the parsed document, with the fields the renderer reads. *)
#[local] Unset Elimination Schemes.
Inductive Token := mkToken {
  type : string;
  tag : string;
  nesting : Z;            (* 1 opening, 0 self-closing, -1 closing *)
  tcontent : jsstring;
  block : bool;
  hidden : bool;
  children : list Token;
}.
#[local] Set Elimination Schemes.

(** The options given to the constructor (the others keep their defaults). *)
Record Options := mkOptions {
  html : bool;
  linkify : bool;
  typographer : bool;
}.

(** A render rule, [(tokens, idx, options, env, self) => string].  [env] is
    a fresh object at every [md.render(src)] and no rule here reads it;
    [self] is used for [self.renderToken] only, which does not depend on the
    rule table, so a rule is a function of the first three. *)
Definition Rule := list Token -> nat -> Options -> jsstring.

(** An instance: its options and [renderer.rules]. *)
Record Instance := mkInstance {
  options : Options;
  rules : gmap string Rule;
}.

Section Library.

(** The parts of the library the view relies on and does not change: the
    parser, the renderer of inline content, [Renderer.renderToken], and
    the rules a new instance comes with. *)
Variable parse : Options -> jsstring -> list Token.
Variable renderInline : list Token -> Options -> jsstring.
Variable renderToken : list Token -> nat -> Options -> jsstring.
Variable default_rules : gmap string Rule.

(** [new MarkdownIt(options)] *)
Definition new_MarkdownIt (o : Options) : Instance := mkInstance o default_rules.

(** What one turn of the loop of [Renderer.render] appends for [tokens[i]]:
    inline tokens go to [renderInline], a type with a rule goes to the
    rule, any other to [renderToken]. *)
Definition render_at (rs : gmap string Rule) (tokens : list Token)
    (o : Options) (i : nat) : jsstring :=
  match tokens !! i with
  | None => []
  | Some t =>
      if String.eqb (type t) "inline" then renderInline (children t) o
      else match rs !! type t with
           | Some rule => rule tokens i o
           | None => renderToken tokens i o
           end
  end.

(** [Renderer.render(tokens, options, env)]: the pieces for
    [i = 0 .. tokens.length - 1], appended in order. *)
Definition renderer_render (rs : gmap string Rule) (tokens : list Token)
    (o : Options) : jsstring :=
  fold_left (fun result i => result ++ render_at rs tokens o i)
            (seq 0 (length tokens)) [].

(** [md.render(src)] *)
Definition render (m : Instance) (src : jsstring) : jsstring :=
  renderer_render (rules m) (parse (options m) src) (options m).

End Library.

End MarkdownIt.

(* ===================================================================== *)
(** ** Vue's event modifiers                                             *)
(* ===================================================================== *)

Module Vue.

(** The fields of a DOM event that the modifiers look at.  A submit event
    has no [key]. *)
Record Event := mkEvent {
  key : option string;
  shiftKey : bool;
  ctrlKey : bool;
  altKey : bool;
  metaKey : bool;
}.

Definition isUpper (c : ascii) : bool :=
  let n := nat_of_ascii c in ((65 <=? n) && (n <=? 90))%nat.

Definition isWordChar (c : ascii) : bool :=
  let n := nat_of_ascii c in
  (((65 <=? n) && (n <=? 90)) || ((97 <=? n) && (n <=? 122))
   || ((48 <=? n) && (n <=? 57)) || (n =? 95))%nat.

Definition toLower (c : ascii) : ascii :=
  if isUpper c then ascii_of_nat (nat_of_ascii c + 32) else c.

(** [str.replace(/\B([A-Z])/g, '-$1').toLowerCase()]: a capital that follows
    a word character gets a hyphen before it. *)
Fixpoint hyphenate_from (afterWord : bool) (s : string) : string :=
  match s with
  | EmptyString => EmptyString
  | String c s' =>
      let rest := String (toLower c) (hyphenate_from (isWordChar c) s') in
      if isUpper c && afterWord then String "-"%char rest else rest
  end.

Definition hyphenate (s : string) : string := hyphenate_from false s.

(** The aliases of [withKeys]. *)
Definition keyNames (k : string) : option string :=
  if String.eqb k "esc" then Some "escape"
  else if String.eqb k "space" then Some " "
  else if String.eqb k "up" then Some "arrow-up"
  else if String.eqb k "left" then Some "arrow-left"
  else if String.eqb k "right" then Some "arrow-right"
  else if String.eqb k "down" then Some "arrow-down"
  else if String.eqb k "delete" then Some "backspace"
  else None.

Section Listeners.

(** The state a listener runs on, and whether [preventDefault] was called
    on the event. *)
Context {St : Type}.

Record Outcome := mkOutcome {
  after : St;
  defaultPrevented : bool;
}.

Definition Listener := Event -> Outcome -> Outcome.

(** A handler bound without arguments, as in [@submit="handleSend"]. *)
Definition handler (fn : St -> St) : Listener :=
  fun _ o => mkOutcome (fn (after o)) (defaultPrevented o).

Definition pressed (e : Event) (m : string) : bool :=
  if String.eqb m "ctrl" then ctrlKey e
  else if String.eqb m "shift" then shiftKey e
  else if String.eqb m "alt" then altKey e
  else if String.eqb m "meta" then metaKey e
  else false.

Definition systemModifiers : list string := ["ctrl"; "shift"; "alt"; "meta"].

(** [modifierGuards[m](event, modifiers)]: [None] when there is no guard
    of that name; otherwise whether the guard stops the listener, and
    whether it called [preventDefault]. *)
Definition modifierGuard (m : string) (e : Event) (modifiers : list string)
    : option (bool * bool) :=
  if String.eqb m "prevent" then Some (false, true)
  else if String.eqb m "stop" then Some (false, false)
  else if existsb (String.eqb m) systemModifiers
       then Some (negb (pressed e m), false)
  else if String.eqb m "exact"
       then Some (existsb (fun s => pressed e s
                                    && negb (existsb (String.eqb s) modifiers))
                          systemModifiers, false)
  else None.

Fixpoint runGuards (ms modifiers : list string) (fn : Listener) : Listener :=
  fun e o =>
    match ms with
    | [] => fn e o
    | m :: ms' =>
        match modifierGuard m e modifiers with
        | Some (true, _) => o
        | Some (false, p) =>
            runGuards ms' modifiers fn e
              (mkOutcome (after o) (defaultPrevented o || p))
        | None => runGuards ms' modifiers fn e o
        end
    end.

(** [withModifiers(fn, modifiers)] *)
Definition withModifiers (fn : Listener) (modifiers : list string) : Listener :=
  runGuards modifiers modifiers fn.

(** [withKeys(fn, modifiers)] *)
Definition withKeys (fn : Listener) (modifiers : list string) : Listener :=
  fun e o =>
    match key e with
    | None => o
    | Some k =>
        let eventKey := hyphenate k in
        if existsb (fun m => String.eqb m eventKey
                             || match keyNames m with
                                | Some n => String.eqb n eventKey
                                | None => false
                                end)
                   modifiers
        then fn e o
        else o
    end.

End Listeners.

Arguments Outcome : clear implicits.
Arguments Listener : clear implicits.

End Vue.

(* ===================================================================== *)
(** ** The agent view: script                                            *)
(* ===================================================================== *)

Module AgentView.

Import MarkdownIt.

(** The state the script of the view closes over. *)
Record View := mkView {
  md : Instance;
  newMessage : jsstring;                  (* newMessage.value *)
  chatStore : ChatStore.State;
  scrollRequests : nat;                   (* calls of scrollToBottom *)
  localStorage : gmap string jsstring;
  route : list string;                    (* router.push history, last first *)
}.

Definition set_newMessage (s : jsstring) (v : View) : View :=
  mkView (md v) s (chatStore v) (scrollRequests v) (localStorage v) (route v).

Definition set_chatStore (c : ChatStore.State) (v : View) : View :=
  mkView (md v) (newMessage v) c (scrollRequests v) (localStorage v) (route v).

(** The double quote, written by its code unit. *)
Definition dquote : jsstring := [34%N].

Definition table_container_open : jsstring :=
  lit "<div class=" ++ dquote ++ lit "table-container" ++ dquote ++ lit ">".

Definition table_container_close : jsstring := lit "</div>".

(** The greeting pushed on mount; the inverted marks and the accented
    letter are written by their code units. *)
Definition greeting : jsstring :=
  [161%N] ++ lit "Hola! Soy el Agente de la Prefectura del Guayas. "
  ++ [191%N] ++ lit "En qu" ++ [233%N] ++ lit " puedo ayudarte hoy?".

Section Script.

Variable parse : Options -> jsstring -> list Token.
Variable renderInline : list Token -> Options -> jsstring.
Variable renderToken : list Token -> nat -> Options -> jsstring.
Variable default_rules : gmap string Rule.

(** [function (tokens, idx, options, env, self) {
       return self.renderToken(tokens, idx, options); }] *)
Definition renderToken_rule : Rule :=
  fun tokens idx options => renderToken tokens idx options.

(** [new MarkdownIt({ html: true, linkify: true, typographer: true })] *)
Definition md0 : Instance :=
  new_MarkdownIt default_rules (mkOptions true true true).

(** [md.renderer.rules.table_open || function ...] *)
Definition defaultRender : Rule :=
  default renderToken_rule (rules md0 !! "table_open").

Definition table_open_rule : Rule :=
  fun tokens idx options =>
    table_container_open ++ defaultRender tokens idx options.

Definition md1 : Instance :=
  mkInstance (options md0) (<["table_open" := table_open_rule]> (rules md0)).

(** [md.renderer.rules.table_close || function ...], read after
    [table_open] has been replaced. *)
Definition defaultTableClose : Rule :=
  default renderToken_rule (rules md1 !! "table_close").

Definition table_close_rule : Rule :=
  fun tokens idx options =>
    defaultTableClose tokens idx options ++ table_container_close.

(** The instance [md] once the script has set both rules. *)
Definition md_ready : Instance :=
  mkInstance (options md1) (<["table_close" := table_close_rule]> (rules md1)).

(** The view as the script leaves it, over the store it is given. *)
Definition setup (c : ChatStore.State) (ls : gmap string jsstring)
    (r : list string) : View :=
  mkView md_ready [] c 0 ls r.

(** [scrollToBottom]: the scroll itself happens in the DOM after the next
    tick; the view only records that it was asked for. *)
Definition scrollToBottom (v : View) : View :=
  mkView (md v) (newMessage v) (chatStore v) (S (scrollRequests v))
         (localStorage v) (route v).

(** [chatStore.sendMessage(text)], awaited.  The call acts on the store and
    on the world outside; it is given the whole view so that what the view
    looks like while the call runs can be stated. *)
Variable chatStore_sendMessage : jsstring -> View -> View.

Definition handleSend (v : View) : View :=
  if negb (truthy (trim (newMessage v))) || ChatStore.isTyping (chatStore v)
  then v
  else
    let text := newMessage v in
    let v := set_newMessage [] v in
    chatStore_sendMessage text v.

Definition handleLogout (v : View) : View :=
  mkView (md v) (newMessage v) (chatStore v) (scrollRequests v)
         (delete "isAuth" (localStorage v)) ("/login"%string :: route v).

Definition renderMarkdown (v : View) (content : jsstring) : jsstring :=
  render parse renderInline renderToken (md v) content.

(** The callback of [onMounted]; [now] is what [Date.now()] returns. *)
Definition onMounted (now : Z) (v : View) : View :=
  let v :=
    if (length (ChatStore.messages (chatStore v)) =? 0)%nat
    then set_chatStore
           (ChatStore.mkState
              (push (ChatStore.messages (chatStore v))
                    (mkMessage assistant greeting now None))
              (ChatStore.isTyping (chatStore v)))
           v
    else v in
  scrollToBottom v.

(** *** Template bindings *)

(** [:key="msg.timestamp + index"] *)
Definition renderKey (msg : Message) (index : nat) : Z :=
  timestamp msg + Z.of_nat index.

(** The keys of the [v-for] over [chatStore.messages]. *)
Definition renderKeys (thread : list Message) : list Z :=
  imap (fun index msg => renderKey msg index) thread.

(** [<form @submit.prevent="handleSend">] *)
Definition form_submit : Vue.Listener View :=
  Vue.withModifiers (Vue.handler handleSend) ["prevent"%string].

(** [<textarea @keydown.enter.prevent="handleSend">]: the compiler puts
    the key name in [withKeys] and the rest in [withModifiers]. *)
Definition textarea_keydown : Vue.Listener View :=
  Vue.withKeys (Vue.withModifiers (Vue.handler handleSend) ["prevent"%string])
               ["enter"%string].

(** The events of the input bar. *)
Inductive Input :=
| Submit (e : Vue.Event)          (* the form is submitted *)
| Keydown (e : Vue.Event)         (* a key goes down in the textarea *)
| Typed (s : jsstring).           (* v-model writes the box *)

Definition dispatch (i : Input) (v : View) : Vue.Outcome View :=
  match i with
  | Submit e => form_submit e (Vue.mkOutcome v false)
  | Keydown e => textarea_keydown e (Vue.mkOutcome v false)
  | Typed s => Vue.mkOutcome (set_newMessage s v) false
  end.

End Script.

End AgentView.

(* ===================================================================== *)
(** ** Instruments for the statements                                    *)
(* ===================================================================== *)

(** *** A base client that keeps the list of the requests it was given *)

Module Recording.

Import ChatService.

Section Recording.

Context {Env Err Data Hist : Type}.
Variable post : string -> Body Hist -> Env -> (Err + HttpResponse Data) * Env.

Definition recording (url : string) (b : Body Hist)
    (el : Env * list (string * Body Hist))
    : (Err + HttpResponse Data) * (Env * list (string * Body Hist)) :=
  let (r, env') := post url b (fst el) in
  (r, (env', snd el ++ [(url, b)])).

End Recording.

End Recording.

(** *** The defaults of markdown-it, for concrete runs *)

Module Reference.

Import MarkdownIt.

Definition newline : jsstring := [10%N].

(** [default_rules.html_block]: [tokens[idx].content], as it is. *)
Definition html_block : Rule :=
  fun tokens idx _ =>
    match tokens !! idx with
    | Some t => tcontent t
    | None => []
    end.

(** The block-level rules of a new instance that matter below. *)
Definition default_rules : gmap string Rule := {[ "html_block"%string := html_block ]}.

(** [Renderer.renderToken] for tokens without attributes, [xhtmlOut] off. *)
Definition renderToken (tokens : list Token) (idx : nat) (_ : Options) : jsstring :=
  match tokens !! idx with
  | None => []
  | Some token =>
      if hidden token then []
      else
        let result :=
          if block token && negb (nesting token =? -1) && (0 <? idx)%nat
             && match tokens !! (idx - 1)%nat with
                | Some p => hidden p
                | None => false
                end
          then newline else [] in
        let result :=
          result ++ (if nesting token =? -1 then lit "</" else lit "<")
                 ++ lit (tag token) in
        let needLf :=
          if block token then
            if nesting token =? 1 then
              match tokens !! (idx + 1)%nat with
              | Some nextToken =>
                  if String.eqb (type nextToken) "inline" || hidden nextToken
                  then false
                  else if (nesting nextToken =? -1)
                          && String.eqb (tag nextToken) (tag token)
                  then false
                  else true
              | None => true
              end
            else true
          else false in
        result ++ (if needLf then lit ">" ++ newline else lit ">")
  end.

(** [Renderer.renderInline] on plain text children without characters to
    escape: their contents, in order. *)
Definition renderInline (children : list Token) (_ : Options) : jsstring :=
  concat (map tcontent children).

Definition opening (ty tg : string) : Token := mkToken ty tg 1 [] true false [].
Definition closing (ty tg : string) : Token := mkToken ty tg (-1) [] true false [].
Definition text (s : string) : Token := mkToken "text" "" 0 (lit s) false false [].
Definition inline (s : string) : Token := mkToken "inline" "" 0 (lit s) true false [text s].

Definition cell (tg : string) (s : string) : list Token :=
  [opening (tg ++ "_open") tg; inline s; closing (tg ++ "_close") tg].

(** The tokens of the table
<<
    | a | b |
    |---|---|
    | 1 | 2 |
>> *)
Definition table_2x2 : list Token :=
  [opening "table_open" "table"; opening "thead_open" "thead";
   opening "tr_open" "tr"]
  ++ cell "th" "a" ++ cell "th" "b"
  ++ [closing "tr_close" "tr"; closing "thead_close" "thead";
      opening "tbody_open" "tbody"; opening "tr_open" "tr"]
  ++ cell "td" "1" ++ cell "td" "2"
  ++ [closing "tr_close" "tr"; closing "tbody_close" "tbody";
      closing "table_close" "table"].

(** A block of raw HTML, kept as it is when [html] is on. *)
Definition raw_html (s : jsstring) : Token := mkToken "html_block" "" 0 s true false [].

End Reference.

(** *** Occurrences of a piece of text *)

Fixpoint isPrefix (p s : jsstring) : bool :=
  match p, s with
  | [], _ => true
  | _ :: _, [] => false
  | a :: p', b :: s' => (a =? b)%N && isPrefix p' s'
  end.

Fixpoint occurrences (p s : jsstring) : nat :=
  match s with
  | [] => if isPrefix p [] then 1 else 0
  | _ :: s' => ((if isPrefix p s then 1 else 0) + occurrences p s')%nat
  end.

(** *** Token streams with one table *)

Section Tables.

Import MarkdownIt.

(** The indices of the tokens of a type. *)
Definition positions (ty : string) (tokens : list Token) : list nat :=
  List.filter (fun k => match tokens !! k with
                        | Some t => String.eqb (type t) ty
                        | None => false
                        end)
              (seq 0 (length tokens)).

(** One table: it opens at [i], closes at [j], and no other token opens or
    closes a table. *)
Definition one_table (tokens : list Token) (i j : nat) : Prop :=
  positions "table_open" tokens = [i]
  /\ positions "table_close" tokens = [j]
  /\ (i < j)%nat.

(** What the loop appends for [n] tokens from index [a] on. *)
Definition pieces (renderInline : list Token -> Options -> jsstring)
    (renderToken : list Token -> nat -> Options -> jsstring)
    (rs : gmap string Rule) (tokens : list Token) (o : Options)
    (a n : nat) : jsstring :=
  concat (map (render_at renderInline renderToken rs tokens o) (seq a n)).

End Tables.

(** *** The life of a mounted view *)

Section Life.

Import AgentView.

(** A store call seen from the view: it changes the store, nothing else
    of the view. *)
Definition store_call (f : jsstring -> ChatStore.State -> ChatStore.State)
    : jsstring -> View -> View :=
  fun text v => set_chatStore (f text (chatStore v)) v.

(** What can happen to a view between two renderings: an event of the input
    bar (over any behaviour of the store), a mount, a scroll request from a
    watcher, a logout. *)
Inductive step : View -> View -> Prop :=
| step_input f i v : step v (Vue.after (dispatch (store_call f) i v))
| step_mounted now v : step v (onMounted now v)
| step_watch v : step v (scrollToBottom v)
| step_logout v : step v (handleLogout v).

Definition reachable
    (renderToken : list MarkdownIt.Token -> nat -> MarkdownIt.Options -> jsstring)
    (default_rules : gmap string MarkdownIt.Rule) (v : View) : Prop :=
  exists c ls r, rtc step (setup renderToken default_rules c ls r) v.

End Life.

(** *** Concrete stores, views and events *)

Module Sample.

Import AgentView.

(** A base client that rejects every request with status 503 and counts
    what it was asked. *)
Definition failing_post (_ : string) (_ : ChatService.Body Message) (n : nat)
    : (Z + ChatService.HttpResponse ChatStore.ChatResponse) * nat :=
  (inl 503, S n).

(** A base client that answers every request with the message echoed. *)
Definition echo_post (_ : string) (b : ChatService.Body Message) (n : nat)
    : (Z + ChatService.HttpResponse ChatStore.ChatResponse) * nat :=
  (inr (ChatService.mkResponse
          (ChatStore.mkChatResponse (ChatService.message b)
             (lit "ok: " ++ ChatService.message b) (Some (lit "gemini")) None)
          200),
   S n).

(** A view over an empty thread, with [box] in the input box. *)
Definition view (box : jsstring) (waiting : bool) : View :=
  set_newMessage box
    (setup Reference.renderToken Reference.default_rules
       (ChatStore.mkState [] waiting) ∅ []).

(** A store whose [sendMessage] only pushes the user's message. *)
Definition push_user : jsstring -> View -> View :=
  store_call (fun text c =>
                ChatStore.mkState
                  (push (ChatStore.messages c) (mkMessage user text 0 None))
                  (ChatStore.isTyping c)).

(** Enter going down with Shift held. *)
Definition shift_enter : Vue.Event :=
  Vue.mkEvent (Some "Enter"%string) true false false false.

(** The sentence of the spec about Shift: such a keydown leaves the view,
    box and thread, as it was. *)
Definition enter_with_shift_is_ignored
    (chatStore_sendMessage : jsstring -> View -> View)
    (e : Vue.Event) (v : View) : Prop :=
  Vue.key e = Some "Enter"%string ->
  Vue.shiftKey e = true ->
  Vue.after (dispatch chatStore_sendMessage (Keydown e) v) = v.

(** The tokens of a document with a raw HTML block and then a table,
<<
    <div class="table-container"></div>

    | a | b |
    |---|---|
    | 1 | 2 |
>> *)
Definition html_then_table : list MarkdownIt.Token :=
  Reference.raw_html
    (table_container_open ++ table_container_close ++ Reference.newline)
  :: Reference.table_2x2.

(** [md.renderer.render(tokens, md.options)] with the library's defaults. *)
Definition rendered (tokens : list MarkdownIt.Token) : jsstring :=
  MarkdownIt.renderer_render Reference.renderInline Reference.renderToken
    (MarkdownIt.rules (md_ready Reference.renderToken Reference.default_rules))
    tokens
    (MarkdownIt.options (md_ready Reference.renderToken Reference.default_rules)).

(** The sentence of the spec about tables, on the text of the output: one
    container opens in it, and one table. *)
Definition table_wrapped_once (tokens : list MarkdownIt.Token) : Prop :=
  forall i j,
    one_table tokens i j ->
    occurrences table_container_open (rendered tokens) = 1%nat
    /\ occurrences (lit "<table") (rendered tokens) = 1%nat.

(** A stand-in for the parser: the whole source as one raw HTML block. *)
Definition parse_as_html (_ : MarkdownIt.Options) (src : jsstring)
    : list MarkdownIt.Token :=
  [Reference.raw_html src].

(** A greeting, then a message stamped one millisecond after its reply. *)
Definition colliding_thread : list Message :=
  [mkMessage assistant greeting 900 None;
   mkMessage user (lit "hola") 1001 None;
   mkMessage assistant (lit "ok") 1000 None].

End Sample.

(* ===================================================================== *)
(** ** The agent view: the other bindings and the watchers               *)
(* ===================================================================== *)

Module Bindings.

Import AgentView.

(** [:disabled="!newMessage.trim() || chatStore.isTyping"] on the submit
    button. *)
Definition send_disabled (v : View) : bool :=
  negb (truthy (trim (newMessage v))) || ChatStore.isTyping (chatStore v).

(** [:disabled="chatStore.isTyping"] on the textarea. *)
Definition textarea_disabled (v : View) : bool :=
  ChatStore.isTyping (chatStore v).

(** [watch(() => chatStore.messages.length, scrollToBottom)]: at a flush,
    the callback runs when the length is not the one seen at the flush
    before.  [seen] is the view at that earlier flush. *)
Definition watch_length (seen v : View) : View :=
  if (length (ChatStore.messages (chatStore seen))
      =? length (ChatStore.messages (chatStore v)))%nat
  then v
  else scrollToBottom v.

(** [watch(() => chatStore.isTyping, (val) => { if (val) scrollToBottom(); })] *)
Definition watch_isTyping (seen v : View) : View :=
  if Bool.eqb (ChatStore.isTyping (chatStore seen))
              (ChatStore.isTyping (chatStore v))
  then v
  else
    let val := ChatStore.isTyping (chatStore v) in
    if val then scrollToBottom v else v.

(** Both watchers at one flush, in the order they were created. *)
Definition flush_watchers (seen v : View) : View :=
  watch_isTyping seen (watch_length seen v).

(** Whether [tokens[k]] exists and has the type [ty]. *)
Definition token_is (ty : string) (tokens : list MarkdownIt.Token) (k : nat)
    : bool :=
  match tokens !! k with
  | Some t => String.eqb (MarkdownIt.type t) ty
  | None => false
  end.


(** Two stores that differ only on texts made of white space: the second
    drops such a text, the first pushes whatever it is given. *)
Definition push_unless_blank : jsstring -> View -> View :=
  fun text v =>
    if forallb isWhiteSpace text then v else Sample.push_user text v.

(** Enter going down, no modifier held. *)
Definition plain_enter : Vue.Event :=
  Vue.mkEvent (Some "Enter"%string) false false false false.


End Bindings.

(* ===================================================================== *)
(** ** The chat service                                                  *)
(* ===================================================================== *)

Section ServiceFacts.

Import ChatService.

Context {Env Err Data Hist : Type}.
Variable post : string -> Body Hist -> Env -> (Err + HttpResponse Data) * Env.

Lemma sendMessage_unfold message history provider (w : World Env Err) :
  sendMessage post message history provider w =
  match post "chat" (mkBody message (default [] history) provider) (env w) with
  | (inr response, env') => (inr (data response), mkWorld env' (console w))
  | (inl error, env') =>
      (inl error,
       mkWorld env' (console w ++ [mkEntry "Error sending message:" error]))
  end.
Proof.
  unfold sendMessage, try_catch, bind, this_post, ret, console_error, throw.
  destruct (post _ _ _) as [[e | r] env']; reflexivity.
Qed.

(** Whatever the outcome, the base client is asked exactly once, for
    ["chat"], with the body [{message, history, provider}]. *)
Lemma sendMessage_one_request message history provider
    (w : World (Env * list (string * Body Hist)) Err) :
  snd (env (snd (sendMessage (Recording.recording post)
                   message history provider w)))
  = snd (env w) ++ [("chat"%string, mkBody message (default [] history) provider)].
Proof.
  unfold Recording.recording, sendMessage, try_catch, bind, this_post, ret,
    console_error, throw.
  cbn. destruct (post _ _ _) as [[e | r] env']; reflexivity.
Qed.

End ServiceFacts.

(** C5.  [ChatService.sendMessage] does not retry, and when the HTTP call
    fails it throws to its caller the very error it caught: if the request
    rejects with [error], so does [sendMessage], the environment is the one
    that single request left, and the console has one more entry; over a base
    client that records its requests, the call adds exactly one request. *)
Theorem sendMessage_propagates_error
    {Env Err Data Hist : Type}
    (post : string -> ChatService.Body Hist -> Env ->
            (Err + ChatService.HttpResponse Data) * Env)
    (message : jsstring) (history : option (list Hist))
    (provider : option jsstring)
    (w : ChatService.World Env Err) (error : Err) (env' : Env)
    (requests : list (string * ChatService.Body Hist)) :
  post "chat" (ChatService.mkBody message (default [] history) provider)
       (ChatService.env w) = (inl error, env') ->
  ChatService.sendMessage post message history provider w
  = (inl error,
     ChatService.mkWorld env'
       (ChatService.console w
        ++ [ChatService.mkEntry "Error sending message:" error]))
  /\ length (snd (ChatService.env (snd
        (ChatService.sendMessage (Recording.recording post)
           message history provider
           (ChatService.mkWorld (ChatService.env w, requests)
                                (ChatService.console w))))))
     = S (length requests).
Proof.
  intros Hpost. split.
  - rewrite sendMessage_unfold, Hpost. reflexivity.
  - rewrite sendMessage_one_request. cbn. rewrite length_app. cbn. lia.
Qed.

Lemma sendMessage_propagates_error_witness :
  ChatService.sendMessage Sample.failing_post (lit "hola") None None
    (ChatService.mkWorld 0%nat [])
  = (inl 503,
     ChatService.mkWorld 1%nat
       [ChatService.mkEntry "Error sending message:" 503])
  /\ length (snd (ChatService.env (snd
        (ChatService.sendMessage (Recording.recording Sample.failing_post)
           (lit "hola") None None
           (ChatService.mkWorld (0%nat, []) [])))))
     = 1%nat.
Proof.
  apply (sendMessage_propagates_error Sample.failing_post (lit "hola") None None
           (ChatService.mkWorld 0%nat []) 503 1%nat []).
  reflexivity.
Defined.

(** C6.  On success [sendMessage(message, history, provider)] posts to
    ["chat"] the body [{message, history, provider}] and nothing else, and
    returns the [data] of the response as it is, whatever its type. *)
Theorem sendMessage_posts_and_returns_data
    {Env Err Data Hist : Type}
    (post : string -> ChatService.Body Hist -> Env ->
            (Err + ChatService.HttpResponse Data) * Env)
    (message : jsstring) (history : list Hist) (provider : option jsstring)
    (w : ChatService.World Env Err)
    (response : ChatService.HttpResponse Data) (env' : Env)
    (requests : list (string * ChatService.Body Hist)) :
  post "chat" (ChatService.mkBody message history provider)
       (ChatService.env w) = (inr response, env') ->
  ChatService.sendMessage post message (Some history) provider w
  = (inr (ChatService.data response),
     ChatService.mkWorld env' (ChatService.console w))
  /\ snd (ChatService.env (snd
        (ChatService.sendMessage (Recording.recording post)
           message (Some history) provider
           (ChatService.mkWorld (ChatService.env w, requests)
                                (ChatService.console w)))))
     = requests ++ [("chat"%string, ChatService.mkBody message history provider)].
Proof.
  intros Hpost. split.
  - rewrite sendMessage_unfold. cbn. rewrite Hpost. reflexivity.
  - rewrite sendMessage_one_request. reflexivity.
Qed.

Lemma sendMessage_posts_and_returns_data_witness :
  ChatService.sendMessage Sample.echo_post (lit "hola") (Some []) (Some (lit "gemini"))
    (ChatService.mkWorld 0%nat [])
  = (inr (ChatStore.mkChatResponse (lit "hola") (lit "ok: hola")
            (Some (lit "gemini")) None),
     ChatService.mkWorld 1%nat [])
  /\ snd (ChatService.env (snd
        (ChatService.sendMessage (Recording.recording Sample.echo_post)
           (lit "hola") (Some []) (Some (lit "gemini"))
           (ChatService.mkWorld (0%nat, []) []))))
     = [("chat"%string,
         ChatService.mkBody (lit "hola") [] (Some (lit "gemini")))].
Proof.
  apply (sendMessage_posts_and_returns_data Sample.echo_post (lit "hola") []
           (Some (lit "gemini")) (ChatService.mkWorld 0%nat [])
           (ChatService.mkResponse
              (ChatStore.mkChatResponse (lit "hola") (lit "ok: hola")
                 (Some (lit "gemini")) None)
              200)
           1%nat []).
  reflexivity.
Defined.

(* ===================================================================== *)
(** ** The chat store                                                    *)
(* ===================================================================== *)

(** C8.  When the call to the chat service fails, the store's [sendMessage]
    throws nothing, leaves the waiting flag false, and the thread is the old
    one followed by the user's message and exactly one assistant message
    whose content is the fixed notice, whatever the error and the text (so
    for every text that is not empty once trimmed). *)
Theorem store_sendMessage_failure
    {Env Err Hist : Type}
    (post : string -> ChatService.Body Hist -> Env ->
            (Err + ChatService.HttpResponse ChatStore.ChatResponse) * Env)
    (Date_now : Env -> Z) (errorNotice : jsstring)
    (historyOf : list Message -> list Hist) (providerChoice : option jsstring)
    (text : jsstring) (sw : ChatStore.StoreWorld Env Err)
    (error : Err) (out' : ChatService.World Env Err) :
  trim text <> [] ->
  ChatService.sendMessage post text
    (Some (historyOf (push (ChatStore.messages (ChatStore.store sw))
                           (mkMessage user text
                              (Date_now (ChatService.env (ChatStore.outside sw)))
                              None))))
    providerChoice (ChatStore.outside sw) = (inl error, out') ->
  exists sw' reply,
    ChatStore.sendMessage post Date_now errorNotice historyOf providerChoice
      text sw = (inr tt, sw')
    /\ ChatStore.messages (ChatStore.store sw')
       = ChatStore.messages (ChatStore.store sw)
         ++ [mkMessage user text
               (Date_now (ChatService.env (ChatStore.outside sw))) None;
             reply]
    /\ role reply = assistant
    /\ content reply = errorNotice
    /\ ChatStore.isTyping (ChatStore.store sw') = false.
Proof.
  intros _ Hfail. unfold ChatStore.sendMessage. rewrite Hfail. cbn.
  eexists _, _. split; [reflexivity |]. cbn. unfold push.
  rewrite <- app_assoc. cbn. repeat split; reflexivity.
Qed.

Lemma store_sendMessage_failure_witness :
  exists sw' reply,
    ChatStore.sendMessage Sample.failing_post Z.of_nat (lit "No se pudo responder.")
      (fun thread => thread) None (lit "hola")
      (ChatStore.mkStoreWorld (ChatStore.mkState [] false)
         (ChatService.mkWorld 7%nat []))
    = (inr tt, sw')
    /\ ChatStore.messages (ChatStore.store sw')
       = [] ++ [mkMessage user (lit "hola") 7 None; reply]
    /\ role reply = assistant
    /\ content reply = lit "No se pudo responder."
    /\ ChatStore.isTyping (ChatStore.store sw') = false.
Proof.
  apply (store_sendMessage_failure Sample.failing_post Z.of_nat
           (lit "No se pudo responder.") (fun thread => thread) None
           (lit "hola")
           (ChatStore.mkStoreWorld (ChatStore.mkState [] false)
              (ChatService.mkWorld 7%nat []))
           503
           (ChatService.mkWorld 8%nat
              [ChatService.mkEntry "Error sending message:" 503])).
  - vm_compute. discriminate.
  - reflexivity.
Defined.

(* ===================================================================== *)
(** ** The agent view: sending                                           *)
(* ===================================================================== *)

Lemma trimStart_empty (s : jsstring) :
  trimStart s = [] <-> forallb isWhiteSpace s = true.
Proof.
  induction s as [| c s IH]; cbn; [tauto |].
  destruct (isWhiteSpace c); cbn; [exact IH |].
  split; discriminate.
Qed.

Lemma forallb_reverse {A} (f : A -> bool) (l : list A) :
  forallb f (rev l) = forallb f l.
Proof.
  induction l as [| a l IH]; cbn; [reflexivity |].
  rewrite forallb_app, IH. cbn. rewrite andb_true_r. apply andb_comm.
Qed.

Lemma trimStart_head (s : jsstring) c s' :
  trimStart s = c :: s' -> isWhiteSpace c = false.
Proof.
  induction s as [| a s IH]; cbn; [discriminate |].
  destruct (isWhiteSpace a) eqn:Ha; [exact IH |].
  intros [= <- _]. exact Ha.
Qed.

(** The trimmed text is empty exactly when the text is empty or made of
    white space only. *)
Lemma trim_empty_iff_blank (s : jsstring) :
  trim s = [] <-> forallb isWhiteSpace s = true.
Proof.
  unfold trim, trimEnd. split.
  - intros Hempty.
    apply (f_equal (@rev N)) in Hempty. rewrite rev_involutive in Hempty.
    cbn in Hempty. apply trimStart_empty in Hempty.
    rewrite forallb_reverse in Hempty.
    destruct (trimStart s) as [| c s'] eqn:Hstart.
    + apply trimStart_empty, Hstart.
    + apply trimStart_head in Hstart. cbn in Hempty.
      rewrite Hstart in Hempty. discriminate.
  - intros Hblank. apply trimStart_empty in Hblank. rewrite Hblank. reflexivity.
Qed.

(** C2.  When the box is empty once trimmed (it is empty or holds white
    space only), or the waiting flag is already set, [handleSend] does
    nothing: whatever the store's [sendMessage] would do, it is not called
    and the view is left as it was, so the thread has the same length and the
    waiting flag the same value. *)
Theorem handleSend_guard_noop
    (chatStore_sendMessage : jsstring -> AgentView.View -> AgentView.View)
    (v : AgentView.View) :
  trim (AgentView.newMessage v) = []
  \/ forallb isWhiteSpace (AgentView.newMessage v) = true
  \/ ChatStore.isTyping (AgentView.chatStore v) = true ->
  AgentView.handleSend chatStore_sendMessage v = v
  /\ length (ChatStore.messages
               (AgentView.chatStore
                  (AgentView.handleSend chatStore_sendMessage v)))
     = length (ChatStore.messages (AgentView.chatStore v))
  /\ ChatStore.isTyping
       (AgentView.chatStore (AgentView.handleSend chatStore_sendMessage v))
     = ChatStore.isTyping (AgentView.chatStore v).
Proof.
  intros Hguard.
  assert (Hskip : AgentView.handleSend chatStore_sendMessage v = v).
  { unfold AgentView.handleSend.
    destruct Hguard as [Hempty | [Hblank | Hwait]].
    - rewrite Hempty. reflexivity.
    - apply trim_empty_iff_blank in Hblank. rewrite Hblank. reflexivity.
    - rewrite Hwait, orb_true_r. reflexivity. }
  rewrite Hskip. auto.
Qed.

(** C9.  When the box is not empty once trimmed and the flag is not set,
    [handleSend] calls the store with the text of the box as it is, not
    trimmed, and the box is already empty when that call starts. *)
Theorem handleSend_clears_then_sends
    (chatStore_sendMessage : jsstring -> AgentView.View -> AgentView.View)
    (v : AgentView.View) :
  trim (AgentView.newMessage v) <> [] ->
  ChatStore.isTyping (AgentView.chatStore v) = false ->
  AgentView.handleSend chatStore_sendMessage v
  = chatStore_sendMessage (AgentView.newMessage v)
      (AgentView.set_newMessage [] v).
Proof.
  intros Hfull Hidle. unfold AgentView.handleSend.
  rewrite Hidle, orb_false_r.
  destruct (trim (AgentView.newMessage v)) eqn:Htrim; [congruence |].
  reflexivity.
Qed.

Lemma handleSend_guard_noop_witness :
  AgentView.handleSend Sample.push_user (Sample.view (lit "   ") false)
  = Sample.view (lit "   ") false
  /\ length (ChatStore.messages
               (AgentView.chatStore
                  (AgentView.handleSend Sample.push_user
                     (Sample.view (lit "   ") false))))
     = length (ChatStore.messages
                 (AgentView.chatStore (Sample.view (lit "   ") false)))
  /\ ChatStore.isTyping
       (AgentView.chatStore
          (AgentView.handleSend Sample.push_user
             (Sample.view (lit "   ") false)))
     = ChatStore.isTyping
         (AgentView.chatStore (Sample.view (lit "   ") false)).
Proof.
  apply (handleSend_guard_noop Sample.push_user (Sample.view (lit "   ") false)).
  left. reflexivity.
Defined.

Lemma handleSend_clears_then_sends_witness :
  AgentView.handleSend Sample.push_user (Sample.view (lit " hola ") false)
  = Sample.push_user (lit " hola ")
      (AgentView.set_newMessage [] (Sample.view (lit " hola ") false)).
Proof.
  apply (handleSend_clears_then_sends Sample.push_user
           (Sample.view (lit " hola ") false)).
  - vm_compute. discriminate.
  - reflexivity.
Defined.

(** The text that reaches the store keeps its blanks. *)
Example handleSend_sends_untrimmed :
  ChatStore.messages
    (AgentView.chatStore
       (AgentView.handleSend Sample.push_user
          (Sample.view (lit " hola ") false)))
  = [mkMessage user (lit " hola ") 0 None].
Proof. reflexivity. Qed.

(* ===================================================================== *)
(** ** The agent view: the input bar                                     *)
(* ===================================================================== *)

Lemma enter_matches (k : string) :
  existsb (fun m => String.eqb m (Vue.hyphenate k)
                    || match Vue.keyNames m with
                       | Some n => String.eqb n (Vue.hyphenate k)
                       | None => false
                       end)
          ["enter"%string]
  = String.eqb "enter" (Vue.hyphenate k).
Proof. cbn [existsb]. rewrite orb_false_r. apply orb_false_r. Qed.

(** C1, as the code has it.  A submit of the form runs [handleSend]; a key
    going down in the textarea runs [handleSend] exactly when the key is
    Enter, whether Shift (or Ctrl, Alt, Meta) is held or not, and no other
    key does anything; in both cases the default action of the event is
    prevented. *)
Theorem send_on_submit_or_enter
    (chatStore_sendMessage : jsstring -> AgentView.View -> AgentView.View)
    (e : Vue.Event) (v : AgentView.View) :
  AgentView.dispatch chatStore_sendMessage (AgentView.Submit e) v
  = Vue.mkOutcome (AgentView.handleSend chatStore_sendMessage v) true
  /\ AgentView.dispatch chatStore_sendMessage (AgentView.Keydown e) v
     = (if match Vue.key e with
            | Some k => String.eqb "enter" (Vue.hyphenate k)
            | None => false
            end
        then Vue.mkOutcome (AgentView.handleSend chatStore_sendMessage v) true
        else Vue.mkOutcome v false)
  /\ (forall shift ctrl alt meta,
        AgentView.dispatch chatStore_sendMessage
          (AgentView.Keydown (Vue.mkEvent (Some "Enter"%string)
                                shift ctrl alt meta)) v
        = Vue.mkOutcome (AgentView.handleSend chatStore_sendMessage v) true).
Proof.
  split; [reflexivity |]. split.
  - unfold AgentView.dispatch, AgentView.textarea_keydown, Vue.withKeys.
    destruct (Vue.key e) as [k |]; [| reflexivity].
    rewrite enter_matches.
    destruct (String.eqb "enter" (Vue.hyphenate k)); reflexivity.
  - intros shift ctrl alt meta. reflexivity.
Qed.

(** C1, the part that fails: with "hola" in the box and the store idle,
    Enter with Shift held sends "hola" and empties the box. *)
Lemma shift_enter_submits :
  let v := Sample.view (lit "hola") false in
  let v' := Vue.after (AgentView.dispatch Sample.push_user
                         (AgentView.Keydown Sample.shift_enter) v) in
  ChatStore.messages (AgentView.chatStore v')
  = [mkMessage user (lit "hola") 0 None]
  /\ AgentView.newMessage v' = []
  /\ ~ Sample.enter_with_shift_is_ignored Sample.push_user Sample.shift_enter v.
Proof.
  cbv zeta. split; [reflexivity |]. split; [reflexivity |].
  intros Hclaim.
  specialize (Hclaim eq_refl eq_refl).
  apply (f_equal AgentView.newMessage) in Hclaim.
  vm_compute in Hclaim. discriminate.
Qed.

(* ===================================================================== *)
(** ** The agent view: mounting and keys                                 *)
(* ===================================================================== *)

(** C7.  On mount, an empty thread gets exactly one message, the
    assistant's greeting, and a thread that is not empty is left as it is;
    so a message is appended if and only if the thread was empty.  The
    waiting flag is not touched. *)
Theorem onMounted_seeds_empty_thread (now : Z) (v : AgentView.View) :
  let before := ChatStore.messages (AgentView.chatStore v) in
  let after := ChatStore.messages
                 (AgentView.chatStore (AgentView.onMounted now v)) in
  after = (if decide (before = [])
           then [mkMessage assistant AgentView.greeting now None]
           else before)
  /\ (after = before ++ [mkMessage assistant AgentView.greeting now None]
      <-> before = [])
  /\ (after = before <-> before <> [])
  /\ ChatStore.isTyping (AgentView.chatStore (AgentView.onMounted now v))
     = ChatStore.isTyping (AgentView.chatStore v).
Proof.
  cbv zeta. unfold AgentView.onMounted.
  destruct (ChatStore.messages (AgentView.chatStore v)) as [| m thread] eqn:Hthread;
    cbn; rewrite ?Hthread; cbn.
  - repeat split; try reflexivity; try congruence; try discriminate.
  - repeat split; try reflexivity; try congruence; try discriminate.
    intros Happ. exfalso.
    apply (f_equal (@length Message)) in Happ.
    cbn in Happ. rewrite length_app in Happ. cbn in Happ. lia.
Qed.

(** C10.  The key of the message at position [index] is its timestamp plus
    [index], and the keys of a thread need not differ: two adjacent messages
    of which the first is stamped one millisecond after the second have the
    same key, though they are different messages. *)
Theorem renderKey_not_injective :
  (forall msg index,
     AgentView.renderKey msg index = timestamp msg + Z.of_nat index)
  /\ (forall thread index msg,
        thread !! index = Some msg ->
        AgentView.renderKeys thread !! index
        = Some (timestamp msg + Z.of_nat index))
  /\ exists (thread : list Message) (i j : nat) (a b : Message) (k : Z),
       thread !! i = Some a /\ thread !! j = Some b
       /\ j = S i /\ a <> b /\ timestamp a - timestamp b = 1
       /\ AgentView.renderKeys thread !! i = Some k
       /\ AgentView.renderKeys thread !! j = Some k.
Proof.
  split; [reflexivity |]. split.
  - intros thread index msg Hmsg. unfold AgentView.renderKeys.
    rewrite list_lookup_imap, Hmsg. reflexivity.
  - exists Sample.colliding_thread, 1%nat, 2%nat,
      (mkMessage user (lit "hola") 1001 None),
      (mkMessage assistant (lit "ok") 1000 None), 1002.
    repeat split; try reflexivity. discriminate.
Qed.

(* ===================================================================== *)
(** ** The markdown transform                                            *)
(* ===================================================================== *)

Section RenderFacts.

Import MarkdownIt AgentView.

Variable renderInline : list Token -> Options -> jsstring.
Variable renderToken : list Token -> nat -> Options -> jsstring.
Variable default_rules : gmap string Rule.

Local Abbreviation piece := (render_at renderInline renderToken).
Local Abbreviation ready := (rules (md_ready renderToken default_rules)).

Lemma fold_left_append {A} (f : nat -> list A) (l : list nat) (acc : list A) :
  fold_left (fun result i => result ++ f i) l acc = acc ++ concat (map f l).
Proof.
  revert acc. induction l as [| k l IH]; intros acc; cbn.
  - symmetry. apply app_nil_r.
  - rewrite IH. symmetry. apply app_assoc.
Qed.

Lemma renderer_render_pieces rs tokens o :
  renderer_render renderInline renderToken rs tokens o
  = pieces renderInline renderToken rs tokens o 0 (length tokens).
Proof. unfold renderer_render, pieces. rewrite fold_left_append. reflexivity. Qed.

Lemma pieces_app rs tokens o a n m :
  pieces renderInline renderToken rs tokens o a (n + m)
  = pieces renderInline renderToken rs tokens o a n
    ++ pieces renderInline renderToken rs tokens o (a + n) m.
Proof. unfold pieces. rewrite seq_app, map_app, concat_app. reflexivity. Qed.

Lemma pieces_one rs tokens o a :
  pieces renderInline renderToken rs tokens o a 1 = piece rs tokens o a.
Proof. unfold pieces. cbn. apply app_nil_r. Qed.

Lemma pieces_ext rs rs' tokens o a n :
  (forall k, (a <= k < a + n)%nat -> piece rs tokens o k = piece rs' tokens o k) ->
  pieces renderInline renderToken rs tokens o a n
  = pieces renderInline renderToken rs' tokens o a n.
Proof.
  intros Hsame. unfold pieces. f_equal. apply map_ext_in.
  intros k Hk. apply in_seq in Hk. apply Hsame. lia.
Qed.

(** Where a token is neither the opening nor the closing of a table, the
    two rules of the view play no part. *)
Lemma piece_elsewhere tokens o k :
  (forall t, tokens !! k = Some t ->
             type t <> "table_open"%string /\ type t <> "table_close"%string) ->
  piece ready tokens o k = piece default_rules tokens o k.
Proof.
  intros Hother. unfold render_at.
  destruct (tokens !! k) as [t |] eqn:Hk; [| reflexivity].
  destruct (Hother t eq_refl) as [Hopen Hclose].
  destruct (String.eqb (type t) "inline"); [reflexivity |].
  cbn. rewrite lookup_insert_ne by congruence.
  rewrite lookup_insert_ne by congruence. reflexivity.
Qed.

Lemma piece_table_open tokens o k t :
  tokens !! k = Some t -> type t = "table_open"%string ->
  piece ready tokens o k
  = table_container_open ++ piece default_rules tokens o k.
Proof.
  intros Hk Hty. unfold render_at. rewrite Hk, Hty. cbn.
  rewrite lookup_insert_ne by discriminate.
  rewrite lookup_insert_eq.
  unfold table_open_rule, defaultRender. cbn.
  destruct (default_rules !! "table_open"%string); reflexivity.
Qed.

Lemma piece_table_close tokens o k t :
  tokens !! k = Some t -> type t = "table_close"%string ->
  piece ready tokens o k
  = piece default_rules tokens o k ++ table_container_close.
Proof.
  intros Hk Hty. unfold render_at. rewrite Hk, Hty. cbn.
  rewrite lookup_insert_eq.
  unfold table_close_rule, defaultTableClose. cbn.
  rewrite lookup_insert_ne by discriminate.
  destruct (default_rules !! "table_close"%string); reflexivity.
Qed.

Lemma positions_spec ty tokens k :
  In k (positions ty tokens)
  <-> exists t, tokens !! k = Some t /\ type t = ty.
Proof.
  unfold positions. rewrite filter_In, in_seq. split.
  - intros [_ Hty]. destruct (tokens !! k) as [t |]; [| discriminate].
    exists t. split; [reflexivity |]. apply String.eqb_eq, Hty.
  - intros (t & Hk & Hty). split.
    + apply lookup_lt_Some in Hk. lia.
    + rewrite Hk. apply String.eqb_eq, Hty.
Qed.

Lemma positions_only ty tokens i k t :
  positions ty tokens = [i] ->
  tokens !! k = Some t -> type t = ty -> k = i.
Proof.
  intros Hpos Hk Hty.
  assert (Hin : In k (positions ty tokens)) by (apply positions_spec; eauto).
  rewrite Hpos in Hin. destruct Hin as [-> | []]. reflexivity.
Qed.

Lemma positions_at ty tokens i :
  positions ty tokens = [i] ->
  exists t, tokens !! i = Some t /\ type t = ty.
Proof.
  intros Hpos. apply positions_spec. rewrite Hpos. left. reflexivity.
Qed.

(** The output for a stream with one table: what the library alone would
    give, with the container opened right before the table and closed
    right after it. *)
Lemma render_one_table tokens o i j :
  one_table tokens i j ->
  renderer_render renderInline renderToken ready tokens o
  = pieces renderInline renderToken default_rules tokens o 0 i
    ++ table_container_open
    ++ piece default_rules tokens o i
    ++ pieces renderInline renderToken default_rules tokens o (S i) (j - S i)
    ++ piece default_rules tokens o j
    ++ table_container_close
    ++ pieces renderInline renderToken default_rules tokens o (S j)
         (length tokens - S j).
Proof.
  intros (Hopen & Hclose & Hij).
  destruct (positions_at _ _ _ Hopen) as (ti & Hi & Hti).
  destruct (positions_at _ _ _ Hclose) as (tj & Hj & Htj).
  assert (Hlen : (j < length tokens)%nat) by (eapply lookup_lt_Some; eauto).
  assert (Helse : forall k, k <> i -> k <> j ->
            piece ready tokens o k = piece default_rules tokens o k).
  { intros k Hki Hkj. apply piece_elsewhere. intros t Hk. split; intros Hty.
    - apply Hki. eapply positions_only; eauto.
    - apply Hkj. eapply positions_only; eauto. }
  rewrite renderer_render_pieces.
  transitivity
    (pieces renderInline renderToken ready tokens o 0
       (i + (1 + ((j - S i) + (1 + (length tokens - S j)))))).
  { f_equal. lia. }
  rewrite !pieces_app, !pieces_one.
  replace (0 + i)%nat with i by lia.
  replace (i + 1)%nat with (S i) by lia.
  replace (S i + (j - S i))%nat with j by lia.
  replace (j + 1)%nat with (S j) by lia.
  rewrite (piece_table_open tokens o i ti Hi Hti).
  rewrite (piece_table_close tokens o j tj Hj Htj).
  rewrite (pieces_ext ready default_rules tokens o 0 i)
    by (intros k Hk; apply Helse; lia).
  rewrite (pieces_ext ready default_rules tokens o (S i) (j - S i))
    by (intros k Hk; apply Helse; lia).
  rewrite (pieces_ext ready default_rules tokens o (S j) (length tokens - S j))
    by (intros k Hk; apply Helse; lia).
  rewrite <- !app_assoc. reflexivity.
Qed.

End RenderFacts.

(** C3, as the code has it.  When the content parses to a stream with one
    table, opened at token [i] and closed at token [j], [renderMarkdown]
    gives what the library alone gives for the tokens, in order, with the
    container opened once, right before what the library gives for the
    opening of the table, and closed once, right after what it gives for the
    closing; the columns and rows of the table play no part.  What the
    library gives for the other tokens is not constrained. *)
Theorem renderMarkdown_wraps_table
    (parse : MarkdownIt.Options -> jsstring -> list MarkdownIt.Token)
    (renderInline : list MarkdownIt.Token -> MarkdownIt.Options -> jsstring)
    (renderToken : list MarkdownIt.Token -> nat -> MarkdownIt.Options -> jsstring)
    (default_rules : gmap string MarkdownIt.Rule)
    (v : AgentView.View) (content : jsstring) (i j : nat) :
  let o := MarkdownIt.mkOptions true true true in
  let tokens := parse o content in
  let library := pieces renderInline renderToken default_rules tokens o in
  AgentView.md v = AgentView.md_ready renderToken default_rules ->
  one_table tokens i j ->
  AgentView.renderMarkdown parse renderInline renderToken v content
  = library 0%nat i
    ++ AgentView.table_container_open
    ++ library i 1%nat
    ++ library (S i) (j - S i)%nat
    ++ library j 1%nat
    ++ AgentView.table_container_close
    ++ library (S j) (length tokens - S j)%nat.
Proof.
  cbv zeta. intros Hmd Htable.
  unfold AgentView.renderMarkdown, MarkdownIt.render. rewrite Hmd.
  change (MarkdownIt.options (AgentView.md_ready renderToken default_rules))
    with (MarkdownIt.mkOptions true true true).
  rewrite (render_one_table _ _ _ _ _ i j Htable).
  rewrite !pieces_one. reflexivity.
Qed.

Lemma one_table_html_then_table : one_table Sample.html_then_table 1 22.
Proof. vm_compute. repeat split. lia. Qed.

Lemma renderMarkdown_wraps_table_witness :
  AgentView.renderMarkdown (fun _ _ => Sample.html_then_table)
    Reference.renderInline Reference.renderToken (Sample.view [] false) []
  = pieces Reference.renderInline Reference.renderToken
      Reference.default_rules Sample.html_then_table
      (MarkdownIt.mkOptions true true true) 0 1
    ++ AgentView.table_container_open
    ++ pieces Reference.renderInline Reference.renderToken
         Reference.default_rules Sample.html_then_table
         (MarkdownIt.mkOptions true true true) 1 1
    ++ pieces Reference.renderInline Reference.renderToken
         Reference.default_rules Sample.html_then_table
         (MarkdownIt.mkOptions true true true) 2 (22 - 2)
    ++ pieces Reference.renderInline Reference.renderToken
         Reference.default_rules Sample.html_then_table
         (MarkdownIt.mkOptions true true true) 22 1
    ++ AgentView.table_container_close
    ++ pieces Reference.renderInline Reference.renderToken
         Reference.default_rules Sample.html_then_table
         (MarkdownIt.mkOptions true true true) 23
         (length Sample.html_then_table - 23).
Proof.
  apply (renderMarkdown_wraps_table (fun _ _ => Sample.html_then_table)
           Reference.renderInline Reference.renderToken
           Reference.default_rules (Sample.view [] false) [] 1 22).
  - reflexivity.
  - vm_compute. repeat split. lia.
Defined.

(** C3, the part that fails: a raw HTML block is passed through as it is
    ([html: true]), so a document with one table and such a block can have
    two containers in its output. *)
Lemma raw_html_second_container :
  one_table Sample.html_then_table 1 22
  /\ occurrences AgentView.table_container_open
       (Sample.rendered Sample.html_then_table) = 2%nat
  /\ ~ Sample.table_wrapped_once Sample.html_then_table.
Proof.
  split; [apply one_table_html_then_table |].
  split; [vm_compute; reflexivity |].
  intros Hclaim.
  destruct (Hclaim 1%nat 22%nat one_table_html_then_table) as [Hone _].
  vm_compute in Hone. discriminate.
Qed.

(* ===================================================================== *)
(** ** Rendering does not depend on the history of the view              *)
(* ===================================================================== *)

Section LifeFacts.

Import AgentView.

Lemma md_handleSend f v : md (handleSend (store_call f) v) = md v.
Proof.
  unfold handleSend.
  destruct (negb (truthy (trim (newMessage v)))
            || ChatStore.isTyping (chatStore v)); reflexivity.
Qed.

Lemma dispatch_submit send e v :
  dispatch send (Submit e) v = Vue.mkOutcome (handleSend send v) true.
Proof. reflexivity. Qed.

Lemma dispatch_keydown send e v :
  dispatch send (Keydown e) v
  = (if match Vue.key e with
         | Some k => String.eqb "enter" (Vue.hyphenate k)
         | None => false
         end
     then Vue.mkOutcome (handleSend send v) true
     else Vue.mkOutcome v false).
Proof.
  unfold dispatch, textarea_keydown, Vue.withKeys.
  destruct (Vue.key e) as [k |]; [| reflexivity].
  rewrite enter_matches.
  destruct (String.eqb "enter" (Vue.hyphenate k)); reflexivity.
Qed.

Lemma md_dispatch f i v : md (Vue.after (dispatch (store_call f) i v)) = md v.
Proof.
  destruct i as [e | e | s].
  - rewrite dispatch_submit. apply md_handleSend.
  - rewrite dispatch_keydown.
    destruct (match Vue.key e with Some _ => _ | None => _ end);
      [apply md_handleSend | reflexivity].
  - reflexivity.
Qed.

Lemma md_onMounted now v : md (onMounted now v) = md v.
Proof.
  unfold onMounted.
  destruct (length (ChatStore.messages (chatStore v)) =? 0)%nat; reflexivity.
Qed.

(** No step of the view writes [md] or its rules. *)
Lemma step_keeps_md v v' : step v v' -> md v' = md v.
Proof.
  intros Hstep. destruct Hstep.
  - apply md_dispatch.
  - apply md_onMounted.
  - reflexivity.
  - reflexivity.
Qed.

Lemma steps_keep_md v v' : rtc step v v' -> md v' = md v.
Proof.
  induction 1 as [v | v v1 v2 Hstep _ IH]; [reflexivity |].
  rewrite IH. apply step_keeps_md, Hstep.
Qed.

Lemma reachable_md renderToken default_rules v :
  reachable renderToken default_rules v ->
  md v = md_ready renderToken default_rules.
Proof. intros (c & ls & r & Hsteps). apply (steps_keep_md _ _ Hsteps). Qed.

End LifeFacts.

(** C4.  The markdown transform depends on the content only: at any two
    moments of the life of a view (after any typing, sending, mounting,
    scrolling or logout, and whatever the store did), rendering the same
    content gives the same text; in particular rendering it twice in a row
    does. *)
Theorem renderMarkdown_deterministic
    (parse : MarkdownIt.Options -> jsstring -> list MarkdownIt.Token)
    (renderInline : list MarkdownIt.Token -> MarkdownIt.Options -> jsstring)
    (renderToken : list MarkdownIt.Token -> nat -> MarkdownIt.Options -> jsstring)
    (default_rules : gmap string MarkdownIt.Rule)
    (v1 v2 : AgentView.View) (content : jsstring) :
  reachable renderToken default_rules v1 ->
  reachable renderToken default_rules v2 ->
  AgentView.renderMarkdown parse renderInline renderToken v1 content
  = AgentView.renderMarkdown parse renderInline renderToken v2 content.
Proof.
  intros H1 H2. unfold AgentView.renderMarkdown.
  rewrite (reachable_md _ _ _ H1), (reachable_md _ _ _ H2). reflexivity.
Qed.

Lemma renderMarkdown_deterministic_witness :
  AgentView.renderMarkdown Sample.parse_as_html
    Reference.renderInline Reference.renderToken
    (Sample.view (lit "hola") false) (lit "<b>hola</b>")
  = AgentView.renderMarkdown Sample.parse_as_html
      Reference.renderInline Reference.renderToken
      (AgentView.onMounted 5
         (Vue.after (AgentView.dispatch Sample.push_user
                       (AgentView.Keydown Sample.shift_enter)
                       (Sample.view (lit "hola") false))))
      (lit "<b>hola</b>").
Proof.
  assert (Hview : reachable Reference.renderToken Reference.default_rules
                    (Sample.view (lit "hola") false)).
  { exists (ChatStore.mkState [] false), ∅, [].
    eapply rtc_l; [| apply rtc_refl].
    apply (step_input (fun _ c => c) (AgentView.Typed (lit "hola"))). }
  apply (renderMarkdown_deterministic Sample.parse_as_html
           Reference.renderInline Reference.renderToken
           Reference.default_rules).
  - exact Hview.
  - destruct Hview as (c & ls & r & Hsteps).
    exists c, ls, r.
    eapply rtc_r; [eapply rtc_r; [exact Hsteps |] |].
    + apply (step_input
               (fun text c =>
                  ChatStore.mkState
                    (push (ChatStore.messages c) (mkMessage user text 0 None))
                    (ChatStore.isTyping c))
               (AgentView.Keydown Sample.shift_enter)).
    + apply step_mounted.
Defined.


(* ===================================================================== *)
(** ** More on sending                                                   *)
(* ===================================================================== *)

Section SendFacts.

Import AgentView.

Lemma handleSend_cases send v :
  handleSend send v
  = if Bindings.send_disabled v then v
    else send (newMessage v) (set_newMessage [] v).
Proof. reflexivity. Qed.

Lemma send_disabled_empty_box v :
  newMessage v = [] -> Bindings.send_disabled v = true.
Proof. intros Hbox. unfold Bindings.send_disabled. rewrite Hbox. reflexivity. Qed.

Lemma send_enabled v :
  Bindings.send_disabled v = false ->
  forallb isWhiteSpace (newMessage v) = false
  /\ ChatStore.isTyping (chatStore v) = false.
Proof.
  unfold Bindings.send_disabled. intros Hen.
  apply orb_false_elim in Hen. destruct Hen as [Htrim Hidle].
  split; [| exact Hidle].
  destruct (forallb isWhiteSpace (newMessage v)) eqn:Hblank; [| reflexivity].
  apply trim_empty_iff_blank in Hblank. rewrite Hblank in Htrim. discriminate.
Qed.

End SendFacts.

(** X1.  Submitting twice in a row sends once: over a store that does not
    write the input box, a second [handleSend] right after the first changes
    nothing, whether the first one sent or not. *)
Theorem handleSend_twice_sends_once
    (f : jsstring -> ChatStore.State -> ChatStore.State) (v : AgentView.View) :
  AgentView.handleSend (store_call f) (AgentView.handleSend (store_call f) v)
  = AgentView.handleSend (store_call f) v.
Proof.
  rewrite (handleSend_cases (store_call f) v).
  destruct (Bindings.send_disabled v) eqn:Hdis.
  - rewrite handleSend_cases, Hdis. reflexivity.
  - rewrite handleSend_cases.
    rewrite send_disabled_empty_box; reflexivity.
Qed.

(** X2.  The submit button is disabled exactly when [handleSend] would do
    nothing whatever the store does; and whenever the textarea is disabled,
    so is the button. *)
Theorem send_disabled_iff_noop (v : AgentView.View) :
  (Bindings.send_disabled v = true
   <-> forall send, AgentView.handleSend send v = v)
  /\ (Bindings.textarea_disabled v = true -> Bindings.send_disabled v = true).
Proof.
  split; [split |].
  - intros Hdis send. rewrite handleSend_cases, Hdis. reflexivity.
  - intros Hnoop.
    destruct (Bindings.send_disabled v) eqn:Hdis; [reflexivity |].
    specialize (Hnoop (fun _ w => AgentView.scrollToBottom w)).
    rewrite handleSend_cases, Hdis in Hnoop.
    apply (f_equal AgentView.scrollRequests) in Hnoop. cbn in Hnoop. lia.
  - unfold Bindings.textarea_disabled, Bindings.send_disabled.
    intros ->. apply orb_true_r.
Qed.

(** X3.  [handleSend] never hands the store a text made of white space
    only, never calls it while the waiting flag is set, and never calls it
    with anything left in the box: two stores that agree on every call with
    a text that has a character other than white space, on a view that is
    not waiting and whose box is empty, give the same result. *)
Theorem handleSend_calls_only_when_allowed
    (send send' : jsstring -> AgentView.View -> AgentView.View)
    (v : AgentView.View) :
  (forall text w,
     forallb isWhiteSpace text = false ->
     ChatStore.isTyping (AgentView.chatStore w) = false ->
     AgentView.newMessage w = [] ->
     send text w = send' text w) ->
  AgentView.handleSend send v = AgentView.handleSend send' v.
Proof.
  intros Hagree. rewrite !handleSend_cases.
  destruct (Bindings.send_disabled v) eqn:Hdis; [reflexivity |].
  destruct (send_enabled v Hdis) as [Hblank Hidle].
  apply Hagree; [exact Hblank | exact Hidle | reflexivity].
Qed.

Lemma handleSend_calls_only_when_allowed_witness :
  AgentView.handleSend Sample.push_user (Sample.view (lit "  ") false)
  = AgentView.handleSend Bindings.push_unless_blank
      (Sample.view (lit "  ") false).
Proof.
  apply (handleSend_calls_only_when_allowed Sample.push_user
           Bindings.push_unless_blank (Sample.view (lit "  ") false)).
  intros text w Hblank _ _. unfold Bindings.push_unless_blank.
  rewrite Hblank. reflexivity.
Defined.

(** X4.  Typing a text that is not blank and pressing Enter, with or without
    modifier keys, while the store is idle: the store is called with exactly
    the text typed, on the view whose box is empty again, and the default
    action of the key is prevented. *)
Theorem type_then_enter_sends
    (send : jsstring -> AgentView.View -> AgentView.View)
    (e : Vue.Event) (s : jsstring) (v : AgentView.View) :
  Vue.key e = Some "Enter"%string ->
  forallb isWhiteSpace s = false ->
  ChatStore.isTyping (AgentView.chatStore v) = false ->
  AgentView.dispatch send (AgentView.Keydown e)
    (Vue.after (AgentView.dispatch send (AgentView.Typed s) v))
  = Vue.mkOutcome (send s (AgentView.set_newMessage [] v)) true.
Proof.
  intros Hkey Hblank Hidle.
  rewrite dispatch_keydown, Hkey. cbn [Vue.hyphenate].
  change (String.eqb "enter" (Vue.hyphenate "Enter")) with true. cbv iota.
  cbn [AgentView.dispatch Vue.after].
  rewrite handleSend_cases.
  unfold Bindings.send_disabled. cbn [AgentView.set_newMessage
    AgentView.newMessage AgentView.chatStore].
  rewrite Hidle, orb_false_r.
  destruct (trim s) eqn:Htrim.
  - apply trim_empty_iff_blank in Htrim. congruence.
  - reflexivity.
Qed.

Lemma type_then_enter_sends_witness :
  AgentView.dispatch Sample.push_user (AgentView.Keydown Sample.shift_enter)
    (Vue.after (AgentView.dispatch Sample.push_user
                  (AgentView.Typed (lit "hola")) (Sample.view [] false)))
  = Vue.mkOutcome
      (Sample.push_user (lit "hola")
         (AgentView.set_newMessage [] (Sample.view [] false)))
      true.
Proof.
  apply (type_then_enter_sends Sample.push_user Sample.shift_enter
           (lit "hola") (Sample.view [] false)); reflexivity.
Defined.

(* ===================================================================== *)
(** ** Mounting again, logging out, watching                             *)
(* ===================================================================== *)


(** X6.  After [handleLogout] the storage has no ["isAuth"] entry and every
    other entry is as before; when there was no such entry the storage is
    the same; the route pushed last is ["/login"], on top of the earlier
    ones; the thread, the waiting flag and the input box are not touched. *)
Theorem handleLogout_clears_auth_only (v : AgentView.View) :
  AgentView.localStorage (AgentView.handleLogout v) !! "isAuth"%string = None
  /\ (forall k, k <> "isAuth"%string ->
        AgentView.localStorage (AgentView.handleLogout v) !! k
        = AgentView.localStorage v !! k)
  /\ (AgentView.localStorage v !! "isAuth"%string = None ->
        AgentView.localStorage (AgentView.handleLogout v)
        = AgentView.localStorage v)
  /\ AgentView.route (AgentView.handleLogout v)
     = "/login"%string :: AgentView.route v
  /\ AgentView.chatStore (AgentView.handleLogout v) = AgentView.chatStore v
  /\ AgentView.newMessage (AgentView.handleLogout v) = AgentView.newMessage v.
Proof.
  unfold AgentView.handleLogout. cbn. repeat split.
  - apply lookup_delete_eq.
  - intros k Hk. apply lookup_delete_ne. congruence.
  - intros Hnone. apply delete_id, Hnone.
Qed.

(** X7.  Logging out is independent of the conversation: it commutes with a
    mount and with a send, and a second logout changes the storage no
    further. *)
Theorem handleLogout_commutes
    (f : jsstring -> ChatStore.State -> ChatStore.State)
    (now : Z) (v : AgentView.View) :
  AgentView.onMounted now (AgentView.handleLogout v)
  = AgentView.handleLogout (AgentView.onMounted now v)
  /\ AgentView.handleSend (store_call f) (AgentView.handleLogout v)
     = AgentView.handleLogout (AgentView.handleSend (store_call f) v)
  /\ AgentView.localStorage
       (AgentView.handleLogout (AgentView.handleLogout v))
     = AgentView.localStorage (AgentView.handleLogout v).
Proof.
  split; [| split].
  - unfold AgentView.onMounted, AgentView.handleLogout. cbn.
    destruct (length (ChatStore.messages (AgentView.chatStore v)) =? 0)%nat;
      reflexivity.
  - rewrite !handleSend_cases.
    change (Bindings.send_disabled (AgentView.handleLogout v))
      with (Bindings.send_disabled v).
    destruct (Bindings.send_disabled v); reflexivity.
  - unfold AgentView.handleLogout. cbn.
    apply delete_id, lookup_delete_eq.
Qed.

(** X8.  At a flush the watchers ask for one scroll when the length of the
    thread is not the one seen before, and for one more when the waiting
    flag has turned from false to true; a flag that turns back to false
    asks for none.  They leave the thread, the flag and the box alone. *)
Theorem flush_watchers_scrolls (seen v : AgentView.View) :
  let grown :=
    negb (length (ChatStore.messages (AgentView.chatStore seen))
          =? length (ChatStore.messages (AgentView.chatStore v)))%nat in
  let risen :=
    negb (ChatStore.isTyping (AgentView.chatStore seen))
    && ChatStore.isTyping (AgentView.chatStore v) in
  AgentView.scrollRequests (Bindings.flush_watchers seen v)
  = (AgentView.scrollRequests v
     + (if grown then 1 else 0) + (if risen then 1 else 0))%nat
  /\ AgentView.chatStore (Bindings.flush_watchers seen v) = AgentView.chatStore v
  /\ AgentView.newMessage (Bindings.flush_watchers seen v)
     = AgentView.newMessage v.
Proof.
  cbv zeta.
  unfold Bindings.flush_watchers, Bindings.watch_isTyping, Bindings.watch_length.
  destruct (length (ChatStore.messages (AgentView.chatStore seen))
            =? length (ChatStore.messages (AgentView.chatStore v)))%nat;
    cbn;
    destruct (ChatStore.isTyping (AgentView.chatStore seen)),
             (ChatStore.isTyping (AgentView.chatStore v));
    cbn; repeat split; lia.
Qed.

(* ===================================================================== *)
(** ** More on the markdown transform                                    *)
(* ===================================================================== *)

Section WrapFacts.

Import MarkdownIt AgentView.

Variable renderInline : list Token -> Options -> jsstring.
Variable renderToken : list Token -> nat -> Options -> jsstring.
Variable default_rules : gmap string Rule.

Local Abbreviation piece := (render_at renderInline renderToken).
Local Abbreviation ready := (rules (md_ready renderToken default_rules)).

(** What the view's rules make of the piece for [tokens[k]]. *)
Lemma piece_wrapped tokens o k :
  piece ready tokens o k
  = (if Bindings.token_is "table_open" tokens k
     then table_container_open else [])
    ++ piece default_rules tokens o k
    ++ (if Bindings.token_is "table_close" tokens k
        then table_container_close else []).
Proof.
  unfold Bindings.token_is.
  destruct (tokens !! k) as [t |] eqn:Hk.
  - destruct (String.eqb (type t) "table_open") eqn:Hopen.
    + apply String.eqb_eq in Hopen.
      rewrite (piece_table_open _ _ _ tokens o k t Hk Hopen).
      rewrite Hopen. cbn. rewrite app_nil_r. reflexivity.
    + destruct (String.eqb (type t) "table_close") eqn:Hclose.
      * apply String.eqb_eq in Hclose.
        rewrite (piece_table_close _ _ _ tokens o k t Hk Hclose).
        reflexivity.
      * rewrite app_nil_r. cbn. apply piece_elsewhere.
        intros t' Ht'. rewrite Hk in Ht'. injection Ht' as <-.
        apply String.eqb_neq in Hopen, Hclose. split; assumption.
  - unfold render_at. rewrite Hk. reflexivity.
Qed.

Lemma pieces_without_tables tokens o :
  positions "table_open" tokens = [] ->
  positions "table_close" tokens = [] ->
  renderer_render renderInline renderToken ready tokens o
  = renderer_render renderInline renderToken default_rules tokens o.
Proof.
  intros Hopen Hclose. rewrite !renderer_render_pieces.
  apply pieces_ext. intros k _. apply piece_elsewhere.
  intros t Hk. split; intros Hty.
  - assert (Hin : In k (positions "table_open" tokens))
      by (apply positions_spec; eauto).
    rewrite Hopen in Hin. destruct Hin.
  - assert (Hin : In k (positions "table_close" tokens))
      by (apply positions_spec; eauto).
    rewrite Hclose in Hin. destruct Hin.
Qed.

End WrapFacts.

(** X9.  Whatever the content and however many tables it has, the view's
    instance renders it as the library alone would, token by token, except
    that the container is opened right before the piece of every
    [table_open] token and closed right after the piece of every
    [table_close] token.  When the library already has a rule for one of the
    two types, that rule is the one wrapped. *)
Theorem render_wraps_every_table
    (parse : MarkdownIt.Options -> jsstring -> list MarkdownIt.Token)
    (renderInline : list MarkdownIt.Token -> MarkdownIt.Options -> jsstring)
    (renderToken : list MarkdownIt.Token -> nat -> MarkdownIt.Options -> jsstring)
    (default_rules : gmap string MarkdownIt.Rule) (content : jsstring) :
  let o := MarkdownIt.mkOptions true true true in
  let tokens := parse o content in
  MarkdownIt.render parse renderInline renderToken
    (AgentView.md_ready renderToken default_rules) content
  = concat
      (map (fun k =>
              (if Bindings.token_is "table_open" tokens k
               then AgentView.table_container_open else [])
              ++ MarkdownIt.render_at renderInline renderToken default_rules
                   tokens o k
              ++ (if Bindings.token_is "table_close" tokens k
                  then AgentView.table_container_close else []))
           (seq 0 (length tokens))).
Proof.
  cbv zeta. unfold MarkdownIt.render.
  change (MarkdownIt.options (AgentView.md_ready renderToken default_rules))
    with (MarkdownIt.mkOptions true true true).
  rewrite renderer_render_pieces. unfold pieces. f_equal.
  apply map_ext. intros k. apply piece_wrapped.
Qed.

(** X10.  Content without a table is rendered exactly as by a new instance
    of the library with the same options: the two rules of the view change
    nothing else. *)
Theorem render_without_table_unchanged
    (parse : MarkdownIt.Options -> jsstring -> list MarkdownIt.Token)
    (renderInline : list MarkdownIt.Token -> MarkdownIt.Options -> jsstring)
    (renderToken : list MarkdownIt.Token -> nat -> MarkdownIt.Options -> jsstring)
    (default_rules : gmap string MarkdownIt.Rule) (content : jsstring) :
  positions "table_open" (parse (MarkdownIt.mkOptions true true true) content)
  = [] ->
  positions "table_close" (parse (MarkdownIt.mkOptions true true true) content)
  = [] ->
  MarkdownIt.render parse renderInline renderToken
    (AgentView.md_ready renderToken default_rules) content
  = MarkdownIt.render parse renderInline renderToken
      (AgentView.md0 default_rules) content.
Proof.
  intros Hopen Hclose. unfold MarkdownIt.render.
  change (MarkdownIt.options (AgentView.md_ready renderToken default_rules))
    with (MarkdownIt.mkOptions true true true).
  change (MarkdownIt.options (AgentView.md0 default_rules))
    with (MarkdownIt.mkOptions true true true).
  apply pieces_without_tables; assumption.
Qed.

Lemma render_without_table_unchanged_witness :
  MarkdownIt.render Sample.parse_as_html Reference.renderInline
    Reference.renderToken
    (AgentView.md_ready Reference.renderToken Reference.default_rules)
    (lit "<b>hola</b>")
  = MarkdownIt.render Sample.parse_as_html Reference.renderInline
      Reference.renderToken (AgentView.md0 Reference.default_rules)
      (lit "<b>hola</b>").
Proof.
  apply (render_without_table_unchanged Sample.parse_as_html
           Reference.renderInline Reference.renderToken
           Reference.default_rules (lit "<b>hola</b>")); reflexivity.
Defined.

(* ===================================================================== *)
(** ** More on the render keys                                           *)
(* ===================================================================== *)







(* ===================================================================== *)
(** ** The button after a submit                                         *)
(* ===================================================================== *)

(** X13.  Right after a submit of the form, over a store that does not write
    the input box, the submit button is disabled, whether the submit sent
    something or not: either nothing was sent and the view is as before, or
    the box is now empty. *)
Theorem send_disabled_after_submit
    (f : jsstring -> ChatStore.State -> ChatStore.State)
    (e : Vue.Event) (v : AgentView.View) :
  let v' := Vue.after (AgentView.dispatch (store_call f) (AgentView.Submit e) v) in
  Bindings.send_disabled v' = true
  /\ (v' = v \/ AgentView.newMessage v' = []).
Proof.
  cbv zeta. rewrite dispatch_submit. cbn [Vue.after].
  rewrite handleSend_cases.
  destruct (Bindings.send_disabled v) eqn:Hdis.
  - split; [exact Hdis | left; reflexivity].
  - split; [apply send_disabled_empty_box; reflexivity | right; reflexivity].
Qed.
